(** * GeoRSS feed client: [aio_georss_client/feed.py]

    A shallow embedding of the class [GeoRssFeed] and the properties of
    its update cycle: fetch, parse, entry construction, filtering and
    newest-timestamp extraction. *)

From Stdlib Require Import ZArith List Bool Lia Orders Sorted Permutation Mergesort.
From Stdlib Require Strings.Byte.
From Corelib Require Import PrimFloat.
From Corelib Require FloatOps FloatAxioms SpecFloat.
From stdpp Require Import base decidable option list gmap strings.

Local Open Scope Z_scope.

(** ** Python values *)

(** [float] is IEEE binary64, as the annotation of [filter_radius] has it.
    [bool(x)] is [x != 0.0]: both zeros are falsy, NaN is truthy. *)
Definition float_truthy (x : float) : bool := negb (PrimFloat.eqb x 0%float).

(** A [datetime], as a count of microseconds; totally ordered.  Every
    [datetime] object is truthy. *)
Definition datetime := Z.

(** The category of an entry: a string, or [None]. *)
Definition category_t := option string.

Definition Coordinates : Type := float * float.

Inductive Geometry :=
| Point (c : Coordinates)
| Polygon (cs : list Coordinates).

Definition bytes := list Byte.byte.

(** [codecs.BOM_UTF8 = b'\xef\xbb\xbf'] *)
Definition BOM_UTF8 : bytes := [Byte.xef; Byte.xbb; Byte.xbf].

(** [sorted(..., reverse=True)] on datetimes: merge sort for the order
    [>=]. *)
Module DescendingOrder <: TotalLeBool.
Definition t := datetime.
Definition leb (x y : t) : bool := y <=? x.
Lemma leb_total x y : leb x y = true \/ leb y x = true.
Proof. unfold leb. rewrite !Z.leb_le. lia. Qed.
End DescendingOrder.

Module SortedReverse := Sort DescendingOrder.

(** ** Exceptions and results *)

Inductive exn :=
| ClientError (detail : string)   (* aiohttp.client_exceptions.ClientError and subclasses *)
| TimeoutError                    (* asyncio.TimeoutError *)
| TypeError (detail : string)
| AttributeError (detail : string)
| OtherError (cls : string).      (* any other exception class *)

Inductive result (A : Type) :=
| Ret (a : A)
| Raise (e : exn).
Arguments Ret {A} a.
Arguments Raise {A} e.

Definition is_ClientError (e : exn) : bool :=
  match e with ClientError _ => true | _ => false end.

Definition is_TimeoutError (e : exn) : bool :=
  match e with TimeoutError => true | _ => false end.

(** ** Constants of [consts.py] *)

(** Modelled from the spec: the status enumeration [OK], [OK_NO_DATA],
    [ERROR] of [consts.py], three distinct values. *)
Inductive Status := UPDATE_OK | UPDATE_OK_NO_DATA | UPDATE_ERROR.

(** Modelled from the spec: the key of the attribution string in the
    feed-level metadata. *)
Definition ATTR_ATTRIBUTION : string := "attribution".

(** Modelled from the spec: the default request timeout, ten seconds. *)
Definition DEFAULT_REQUEST_TIMEOUT : Z := 10.

(** ** Collaborators *)

(** The attributes of a feed entry that the client reads. *)
Record FeedEntry := {
  geometry : option Geometry;
  distance_to_home : float;
  category : category_t;
  published : option datetime
}.

Definition Namespaces := option (list (string * string)).

(** [XmlParser(additional_namespaces)] *)
Record XmlParser := { additional_namespaces : Namespaces }.

Record ClientSession := { session_id : nat }.

(** The response object of aiohttp's [ClientSession.request]: the status
    code, the charset declared in the Content-Type header and the raw
    payload behind its [content] stream. *)
Record ClientResponse := {
  status : Z;
  charset : option string;
  payload : bytes
}.

(** Attribute access on the response.  From aiohttp: a [ClientResponse]
    has no attribute [encoding], and its [content] is a [StreamReader],
    which has no method [startswith]. *)
Definition response_encoding (response : ClientResponse) : result (option string) :=
  Raise (AttributeError "'ClientResponse' object has no attribute 'encoding'").

Definition content_startswith (response : ClientResponse) (prefix : bytes) : result bool :=
  Raise (AttributeError "'StreamReader' object has no attribute 'startswith'").

Record Request := {
  req_session : ClientSession;
  req_method : string;
  req_url : string;
  req_headers : option (list (string * string));
  req_params : option (list (string * string));
  req_timeout : Z
}.

Section GeoRssFeed.

(** The raw entry record the XML parser produces for a feed item. *)
Context {RssEntry : Type}.

(** The feed object the XML parser returns. *)
Record Feed := {
  author : option string;
  entries : list RssEntry
}.

(** What the network and the XML parser do during one call: the outcome
    of opening the request, of [response.raise_for_status()], of decoding
    a payload by a charset, and of [XmlParser(namespaces).parse(text)].
    A falsy parser result is [None]. *)
Record External := {
  request : Request -> result ClientResponse;
  raise_for_status : ClientResponse -> result unit;
  decode : option string -> bytes -> result string;
  parse : XmlParser -> string -> result (option Feed)
}.

(** [response.text()]: aiohttp decodes the payload by the charset of the
    response. *)
Definition text (ext : External) (response : ClientResponse) : result string :=
  decode ext (charset response) (payload response).

(** The instance attributes of a [GeoRssFeed]. [parser] and [feed_data]
    do not exist until a fetch has stored them. *)
Record GeoRssFeed := {
  _websession : ClientSession;
  _home_coordinates : Coordinates;
  _filter_radius : option float;
  _filter_categories : option (gset category_t);
  _url : string;
  _last_timestamp : option datetime;
  parser : option XmlParser;
  feed_data : option (option Feed)
}.

(** [__init__] *)
Definition __init__ (websession : ClientSession) (home_coordinates : Coordinates)
    (url : string) (filter_radius : option float)
    (filter_categories : option (gset category_t)) : GeoRssFeed :=
  {| _websession := websession;
     _home_coordinates := home_coordinates;
     _filter_radius := filter_radius;
     _filter_categories := filter_categories;
     _url := url;
     _last_timestamp := None;
     parser := None;
     feed_data := None |}.

(** ** Computations on the instance: state and exceptions *)

Definition M (A : Type) : Type := GeoRssFeed -> GeoRssFeed * result A.

Definition ret {A} (a : A) : M A := fun self => (self, Ret a).

Definition raise {A} (e : exn) : M A := fun self => (self, Raise e).

Definition bind {A B} (m : M A) (k : A -> M B) : M B :=
  fun self =>
    match m self with
    | (self', Ret a) => k a self'
    | (self', Raise e) => (self', Raise e)
    end.

Definition lift {A} (r : result A) : M A := fun self => (self, r).

Definition get_self : M GeoRssFeed := fun self => (self, Ret self).

(** [try: m except C1: h1 except C2: h2 ...]: the first clause whose class
    matches handles the exception; one raised by a handler is not caught
    by the later clauses. *)
Fixpoint select_handler {A} (clauses : list ((exn -> bool) * M A)) (e : exn) : M A :=
  match clauses with
  | [] => raise e
  | (matches, handler) :: rest => if matches e then handler else select_handler rest e
  end.

Definition try_except {A} (m : M A) (clauses : list ((exn -> bool) * M A)) : M A :=
  fun self =>
    match m self with
    | (self', Ret a) => (self', Ret a)
    | (self', Raise e) => select_handler clauses e self'
    end.

Definition set_parser (p : XmlParser) : M unit :=
  fun self =>
    ({| _websession := _websession self;
        _home_coordinates := _home_coordinates self;
        _filter_radius := _filter_radius self;
        _filter_categories := _filter_categories self;
        _url := _url self;
        _last_timestamp := _last_timestamp self;
        parser := Some p;
        feed_data := feed_data self |}, Ret tt).

Definition set_feed_data (d : option Feed) : M unit :=
  fun self =>
    ({| _websession := _websession self;
        _home_coordinates := _home_coordinates self;
        _filter_radius := _filter_radius self;
        _filter_categories := _filter_categories self;
        _url := _url self;
        _last_timestamp := _last_timestamp self;
        parser := parser self;
        feed_data := Some d |}, Ret tt).

Definition set_last_timestamp (t : option datetime) : M unit :=
  fun self =>
    ({| _websession := _websession self;
        _home_coordinates := _home_coordinates self;
        _filter_radius := _filter_radius self;
        _filter_categories := _filter_categories self;
        _url := _url self;
        _last_timestamp := t;
        parser := parser self;
        feed_data := feed_data self |}, Ret tt).

End GeoRssFeed.

Arguments Feed : clear implicits.
Arguments External : clear implicits.
Arguments GeoRssFeed : clear implicits.
Arguments M : clear implicits.

Declare Scope py_scope.
Delimit Scope py_scope with py.
Notation "'let*' x ':=' m 'in' k" := (bind m (fun x => k))
  (at level 10, x name, m at level 100, k at level 200) : py_scope.
Local Open Scope py_scope.

(** ** The methods of [GeoRssFeed] *)

Section Methods.

Context {RssEntry : Type}.

(** The abstract method [_new_entry(home_coordinates, rss_entry,
    global_data)], implemented by each concrete feed. *)
Variable _new_entry : Coordinates -> RssEntry -> gmap string string -> FeedEntry.

Local Abbreviation Feed := (Feed RssEntry).
Local Abbreviation GeoRssFeed := (GeoRssFeed RssEntry).
Local Abbreviation External := (External RssEntry).
Local Abbreviation M := (M RssEntry).

(** [_client_session_timeout] *)
Definition _client_session_timeout (self : GeoRssFeed) : Z := DEFAULT_REQUEST_TIMEOUT.

(** [_additional_namespaces]: the body is [pass], the call gives [None]. *)
Definition _additional_namespaces (self : GeoRssFeed) : Namespaces := None.

(** [_pre_process_response] (lines 133-141).  The falsy response is
    [None].  Line 137 reads [response.encoding] for the log call and
    line 138 calls [response.content.startswith]; the value is the
    encoding line 141 assigns, when it is reached. *)
Definition _pre_process_response (response : option ClientResponse)
    : result (option string) :=
  match response with
  | Some response =>
      match response_encoding response with
      | Raise e => Raise e
      | Ret _ =>
          match content_startswith response BOM_UTF8 with
          | Raise e => Raise e
          | Ret true => Ret (Some "utf-8-sig"%string)
          | Ret false => Ret None
          end
      end
  | None => Ret None
  end.

(** The [except] clauses of lines 96-99 and of lines 104-112. *)
Definition response_clauses : list ((exn -> bool) * M (Status * option Feed)) :=
  [ (is_ClientError, ret (UPDATE_ERROR, None)) ].

Definition request_clauses : list ((exn -> bool) * M (Status * option Feed)) :=
  [ (is_ClientError, ret (UPDATE_ERROR, None));
    (is_TimeoutError, ret (UPDATE_ERROR, None)) ].

(** [_fetch] (lines 78-112): the body of the coroutine. *)
Definition _fetch (ext : External) (method : string)
    (headers params : option (list (string * string)))
    : M (Status * option Feed) :=
  try_except
    (let* self := get_self in
     let timeout := _client_session_timeout self in
     let* response :=
       lift (request ext {| req_session := _websession self;
                            req_method := method;
                            req_url := _url self;
                            req_headers := headers;
                            req_params := params;
                            req_timeout := timeout |}) in
     try_except
       (let* _ := lift (raise_for_status ext response) in
        let* _ := lift (_pre_process_response (Some response)) in
        let* text := lift (text ext response) in
        let parser := {| additional_namespaces := _additional_namespaces self |} in
        let* feed_data := lift (parse ext parser text) in
        let* _ := set_parser parser in
        let* _ := set_feed_data feed_data in
        ret (UPDATE_OK, feed_data))
       response_clauses)
    request_clauses.

(** [_filter_entries] (lines 143-166).  [if self._filter_radius:] and
    [if self._filter_categories:] test truthiness: [None], a zero radius
    and an empty category set all skip the stage. *)
Definition has_geometry (entry : FeedEntry) : bool :=
  bool_decide (geometry entry <> None).

Definition within_radius (radius : float) (entry : FeedEntry) : bool :=
  PrimFloat.leb (distance_to_home entry) radius.

Definition in_categories (categories : gset category_t) (entry : FeedEntry) : bool :=
  bool_decide (0 < size (({[ category entry ]} : gset category_t) ∩ categories))%nat.

(** Truthiness of a collection: empty is falsy. *)
Definition set_truthy (categories : gset category_t) : bool :=
  negb (bool_decide (categories = ∅)).

Definition _filter_entries (self : GeoRssFeed) (entries : list FeedEntry) : list FeedEntry :=
  let filtered_entries := entries in
  let filtered_entries := List.filter has_geometry filtered_entries in
  let filtered_entries :=
    match _filter_radius self with
    | Some radius =>
        if float_truthy radius
        then List.filter (within_radius radius) filtered_entries
        else filtered_entries
    | None => filtered_entries
    end in
  let filtered_entries :=
    match _filter_categories self with
    | Some categories =>
        if set_truthy categories
        then List.filter (in_categories categories) filtered_entries
        else filtered_entries
    | None => filtered_entries
    end in
  filtered_entries.

(** [_extract_from_feed] (lines 168-174): a non-empty author string is
    truthy. *)
Definition _extract_from_feed (feed : Feed) : gmap string string :=
  let global_data : gmap string string := ∅ in
  match author feed with
  | Some a => if bool_decide (a = ""%string) then global_data
              else <[ ATTR_ATTRIBUTION := a ]> global_data
  | None => global_data
  end.

(** The comprehension of line 180. *)
Definition published_dates (feed_entries : list FeedEntry) : list datetime :=
  flat_map (fun entry => match published entry with
                         | Some d => [d]
                         | None => []
                         end) feed_entries.

(** [_extract_last_timestamp] (lines 176-186). *)
Definition _extract_last_timestamp (feed_entries : list FeedEntry) : option datetime :=
  match feed_entries with
  | _ :: _ =>
      let dates := SortedReverse.sort (published_dates feed_entries) in
      match dates with
      | last_timestamp :: _ => Some last_timestamp
      | [] => None
      end
  | [] => None
  end.

(** The loop of lines 58-63. *)
Definition build_entries (self : GeoRssFeed) (data : Feed) : list FeedEntry :=
  let global_data := _extract_from_feed data in
  fold_left
    (fun entries rss_entry =>
       entries ++ [_new_entry (_home_coordinates self) rss_entry global_data])
    (entries data) [].

(** Lines 56-76 of [update]: the dispatch on the pair [status, data]. *)
Definition update_body (status : Status) (data : option Feed)
    : M (Status * option (list FeedEntry)) :=
  match status with
  | UPDATE_OK =>
      match data with
      | Some feed =>
          let* self := get_self in
          let entries := build_entries self feed in
          let filtered_entries := _filter_entries self entries in
          let* _ := set_last_timestamp (_extract_last_timestamp filtered_entries) in
          ret (UPDATE_OK, Some filtered_entries)
      | None => ret (UPDATE_OK, None)
      end
  | UPDATE_OK_NO_DATA => ret (UPDATE_OK_NO_DATA, None)
  | UPDATE_ERROR => ret (UPDATE_ERROR, None)
  end.

(** The value of a call expression: calling a coroutine function
    ([async def]) does not run its body, it gives a coroutine object. *)
Inductive pyobject (A : Type) :=
| Coroutine (body : M A)
| Tuple (a : A).
Arguments Coroutine {A} body.
Arguments Tuple {A} a.

(** [a, b = v] *)
Definition unpack {A} (v : pyobject A) : M A :=
  match v with
  | Tuple a => ret a
  | Coroutine _ => raise (TypeError "cannot unpack non-iterable coroutine object")
  end.

(** [update] (lines 53-76), as written: line 55 is
    [status, data = self._fetch()], without [await]. *)
Definition update (ext : External) : M (Status * option (list FeedEntry)) :=
  let* fetched := unpack (Coroutine (_fetch ext "GET" None None)) in
  update_body (fst fetched) (snd fetched).

(** A sequence of calls of [update], one environment per call; an
    exception ends a call, and the caller goes on with the next. *)
Definition updates (exts : list External) (self : GeoRssFeed) : GeoRssFeed :=
  fold_left (fun self ext => fst (update ext self)) exts self.

(** The entries [update] returns for a feed, and the timestamp it
    records. *)
Definition filtered_entries_of (self : GeoRssFeed) (feed : Feed) : list FeedEntry :=
  _filter_entries self (build_entries self feed).

(** The property [last_timestamp]. *)
Definition last_timestamp (self : GeoRssFeed) : option datetime := _last_timestamp self.

End Methods.

(** ** The properties of the specification, as it words them *)

Section Specification.

Context {RssEntry : Type}.


(** "Every returned entry has non-null geometry; if a radius filter is
    configured, its distance-to-home is at most the radius; if a category
    filter set is configured, its category is a member of that set." *)
Definition filter_invariant (self : GeoRssFeed RssEntry)
    (returned : list FeedEntry) : Prop :=
  forall entry, In entry returned ->
    geometry entry <> None /\
    (forall radius, _filter_radius self = Some radius ->
       PrimFloat.leb (distance_to_home entry) radius = true) /\
    (forall categories, _filter_categories self = Some categories ->
       category entry ∈ categories).

(** "The only client-instance field that may be mutated is
    [last_timestamp]." *)
Definition only_last_timestamp_differs (before after : GeoRssFeed RssEntry) : Prop :=
  _websession after = _websession before /\
  _home_coordinates after = _home_coordinates before /\
  _filter_radius after = _filter_radius before /\
  _filter_categories after = _filter_categories before /\
  _url after = _url before /\
  parser after = parser before /\
  feed_data after = feed_data before.

(** The configuration: what [__init__] receives. *)
Definition same_configuration (before after : GeoRssFeed RssEntry) : Prop :=
  _websession after = _websession before /\
  _home_coordinates after = _home_coordinates before /\
  _filter_radius after = _filter_radius before /\
  _filter_categories after = _filter_categories before /\
  _url after = _url before.

(** "The maximum of the published timestamps of the entries that have
    one." *)
Definition is_newest_published (feed_entries : list FeedEntry) (newest : datetime) : Prop :=
  (exists entry, In entry feed_entries /\ published entry = Some newest) /\
  (forall entry d, In entry feed_entries -> published entry = Some d -> d <= newest).

(** "The raw payload begins with a UTF-8 byte-order mark." *)
Definition begins_with_bom (payload : bytes) : Prop :=
  exists rest, payload = BOM_UTF8 ++ rest.

(** The stages of the filter an entry has to pass, by configuration. *)
Definition passes_radius (self : GeoRssFeed RssEntry) (entry : FeedEntry) : bool :=
  match _filter_radius self with
  | Some radius => if float_truthy radius then within_radius radius entry else true
  | None => true
  end.

Definition passes_categories (self : GeoRssFeed RssEntry) (entry : FeedEntry) : bool :=
  match _filter_categories self with
  | Some categories =>
      if set_truthy categories then in_categories categories entry else true
  | None => true
  end.

(** The same client with the radius filter, or the category filter, not
    configured. *)
Definition without_radius (self : GeoRssFeed RssEntry) : GeoRssFeed RssEntry :=
  {| _websession := _websession self;
     _home_coordinates := _home_coordinates self;
     _filter_radius := None;
     _filter_categories := _filter_categories self;
     _url := _url self;
     _last_timestamp := _last_timestamp self;
     parser := parser self;
     feed_data := feed_data self |}.

Definition without_categories (self : GeoRssFeed RssEntry) : GeoRssFeed RssEntry :=
  {| _websession := _websession self;
     _home_coordinates := _home_coordinates self;
     _filter_radius := _filter_radius self;
     _filter_categories := None;
     _url := _url self;
     _last_timestamp := _last_timestamp self;
     parser := parser self;
     feed_data := feed_data self |}.

(** The exceptions of a transport-level failure or a timeout expiry:
    [ClientError] (connection errors, error statuses, payload errors) and
    [asyncio.TimeoutError]. *)
Definition transport_exn (e : exn) : bool := is_ClientError e || is_TimeoutError e.

(** What the [except] clauses of [_fetch] make of an exception. *)
Definition after_handlers (e : exn) (self : GeoRssFeed RssEntry)
    : GeoRssFeed RssEntry * result (Status * option (Feed RssEntry)) :=
  if transport_exn e then (self, Ret (UPDATE_ERROR, None)) else (self, Raise e).

(** The request of lines 83-86. *)
Definition fetch_request (method : string) (headers params : option (list (string * string)))
    (self : GeoRssFeed RssEntry) : Request :=
  {| req_session := _websession self;
     req_method := method;
     req_url := _url self;
     req_headers := headers;
     req_params := params;
     req_timeout := DEFAULT_REQUEST_TIMEOUT |}.

(** The request [update] sends. *)
Definition update_request (self : GeoRssFeed RssEntry) : Request :=
  fetch_request "GET" None None self.

(** A transport-level failure or a timeout expiry during the call: such
    an exception is raised when the request is opened or when the status
    is checked. *)
Definition transport_failure (ext : External RssEntry) (self : GeoRssFeed RssEntry) : Prop :=
  (exists e, request ext (update_request self) = Raise e /\ transport_exn e = true) \/
  (exists response e,
     request ext (update_request self) = Ret response /\
     raise_for_status ext response = Raise e /\ transport_exn e = true).

End Specification.

(** ** Combining results *)

(** The later of two optional timestamps. *)
Definition newer_of (a b : option datetime) : option datetime :=
  match a, b with
  | Some x, Some y => Some (Z.max x y)
  | Some x, None => Some x
  | None, _ => b
  end.

(** ** Sample clients, entries and servers *)

Module Examples.

(** A feed whose raw records already are entries. *)
Definition entry_of_record (home : Coordinates) (rss_entry : FeedEntry)
    (global_data : gmap string string) : FeedEntry := rss_entry.

Definition home : Coordinates := ((-27.5)%float, 153%float).

Definition somewhere : option Geometry := Some (Point ((-27)%float, 153.5%float)).

Definition near_fire : FeedEntry :=
  {| geometry := somewhere; distance_to_home := 10%float;
     category := Some "Fire"%string; published := Some 1000 |}.

Definition far_flood : FeedEntry :=
  {| geometry := somewhere; distance_to_home := 80%float;
     category := Some "Flood"%string; published := Some 2000 |}.

Definition placeless : FeedEntry :=
  {| geometry := None; distance_to_home := 5%float;
     category := Some "Fire"%string; published := Some 3000 |}.

Definition undated : FeedEntry :=
  {| geometry := somewhere; distance_to_home := 20%float;
     category := None; published := None |}.

Definition client (radius : option float) (categories : option (gset category_t))
    (last : option datetime) : GeoRssFeed FeedEntry :=
  {| _websession := {| session_id := 1 |};
     _home_coordinates := home;
     _filter_radius := radius;
     _filter_categories := categories;
     _url := "https://example.org/feed.xml";
     _last_timestamp := last;
     parser := None;
     feed_data := None |}.

Definition feed_of (records : list FeedEntry) : Feed FeedEntry :=
  {| author := Some "Rural Fire Service"%string; entries := records |}.

Definition plain_payload : bytes := [Byte.x3c; Byte.x72; Byte.x73; Byte.x73; Byte.x2f; Byte.x3e].

Definition bom_payload : bytes := BOM_UTF8 ++ plain_payload.

Definition on_boundary : FeedEntry :=
  {| geometry := somewhere; distance_to_home := 50%float;
     category := Some "Fire"%string; published := Some 1500 |}.

Definition ok_response (body : bytes) : ClientResponse :=
  {| status := 200; charset := Some "utf-8"%string; payload := body |}.


(** A server whose payload the XML parser rejects. *)
Definition malformed : External FeedEntry :=
  {| request := fun _ => Ret (ok_response plain_payload);
     raise_for_status := fun _ => Ret tt;
     decode := fun _ _ => Ret "<rss"%string;
     parse := fun _ _ => Raise (OtherError "ExpatError") |}.

(** A server that answers 304 Not Modified with an empty body. *)
Definition not_modified : External FeedEntry :=
  {| request := fun _ => Ret {| status := 304; charset := None; payload := [] |};
     raise_for_status := fun _ => Ret tt;
     decode := fun _ _ => Ret ""%string;
     parse := fun _ _ => Raise (OtherError "ExpatError") |}.

(** A request that runs into the timeout. *)
Definition timing_out : External FeedEntry :=
  {| request := fun _ => Raise TimeoutError;
     raise_for_status := fun _ => Ret tt;
     decode := fun _ _ => Ret ""%string;
     parse := fun _ _ => Ret None |}.

(** A server that answers 500: the status check raises. *)
Definition failing : External FeedEntry :=
  {| request := fun _ => Ret {| status := 500; charset := None; payload := [] |};
     raise_for_status := fun _ => Raise (ClientError "500, message='Internal Server Error'");
     decode := fun _ _ => Ret ""%string;
     parse := fun _ _ => Ret None |}.

(** A server that labels a payload with a byte-order mark as latin-1. *)
Definition mislabelled (feed : Feed FeedEntry) : External FeedEntry :=
  {| request := fun _ => Ret {| status := 200; charset := Some "iso-8859-1"%string;
                                payload := bom_payload |};
     raise_for_status := fun _ => Ret tt;
     decode := fun _ _ => Ret "<rss/>"%string;
     parse := fun _ _ => Ret (Some feed) |}.

End Examples.

(** ** Filtering *)

Section FilterProperties.

Context {RssEntry : Type}.

Local Abbreviation GeoRssFeed := (GeoRssFeed RssEntry).

Lemma filter_twice {A} (f g : A -> bool) (l : list A) :
  List.filter g (List.filter f l) = List.filter (fun x => f x && g x) l.
Proof.
  induction l as [|x l IH]; simpl; [reflexivity|].
  destruct (f x) eqn:Hf; simpl; [destruct (g x)|]; rewrite IH; reflexivity.
Qed.

Lemma filter_sublist {A} (f : A -> bool) (l : list A) :
  sublist (List.filter f l) l.
Proof.
  induction l as [|x l IH]; simpl; [constructor|].
  destruct (f x); constructor; exact IH.
Qed.

(** The three stages are one filter by the conjunction of the stage
    tests. *)
Lemma _filter_entries_stages (self : GeoRssFeed) (entries : list FeedEntry) :
  _filter_entries self entries =
  List.filter
    (fun entry => has_geometry entry && passes_radius self entry
                  && passes_categories self entry)
    entries.
Proof.
  unfold _filter_entries, passes_radius, passes_categories.
  destruct (_filter_radius self) as [radius|];
    [destruct (float_truthy radius)|];
    (destruct (_filter_categories self) as [categories|];
     [destruct (set_truthy categories)|]);
    rewrite ?filter_twice; apply filter_ext; intros entry;
    rewrite ?andb_true_r, ?andb_assoc; reflexivity.
Qed.

Lemma _filter_entries_In (self : GeoRssFeed) (entries : list FeedEntry) (entry : FeedEntry) :
  In entry (_filter_entries self entries) <->
  In entry entries /\ has_geometry entry = true /\
  passes_radius self entry = true /\ passes_categories self entry = true.
Proof.
  rewrite _filter_entries_stages, filter_In, !andb_true_iff. tauto.
Qed.

(** The intersection test of lines 162-163 is membership. *)
Lemma in_categories_elem_of (categories : gset category_t) (entry : FeedEntry) :
  in_categories categories entry = true <-> category entry ∈ categories.
Proof.
  unfold in_categories. rewrite bool_decide_eq_true. split.
  - intros Hsize. apply size_pos_elem_of in Hsize as [c Hc].
    apply elem_of_intersection in Hc as [Hc Hin].
    apply elem_of_singleton in Hc. subst c. exact Hin.
  - intros Hin.
    assert (Hboth : category entry ∈ ({[ category entry ]} : gset category_t) ∩ categories).
    { apply elem_of_intersection. split; [apply elem_of_singleton; reflexivity|exact Hin]. }
    destruct (size (({[ category entry ]} : gset category_t) ∩ categories)) eqn:Hsize; [|lia].
    apply size_empty_iff in Hsize. rewrite Hsize in Hboth.
    apply not_elem_of_empty in Hboth. destruct Hboth.
Qed.

Lemma set_truthy_non_empty (categories : gset category_t) :
  set_truthy categories = true <-> categories <> ∅.
Proof.
  unfold set_truthy. rewrite negb_true_iff, bool_decide_eq_false. reflexivity.
Qed.

Lemma has_geometry_true (entry : FeedEntry) :
  has_geometry entry = true <-> geometry entry <> None.
Proof. unfold has_geometry. apply bool_decide_eq_true. Qed.

End FilterProperties.

(** ** Newest-timestamp extraction *)

Section TimestampProperties.

Lemma descending_transitive :
  Transitive (fun x y : datetime => is_true (DescendingOrder.leb x y)).
Proof.
  intros x y z. unfold DescendingOrder.leb, is_true. rewrite !Z.leb_le. lia.
Qed.

Lemma published_dates_In (feed_entries : list FeedEntry) (d : datetime) :
  In d (published_dates feed_entries) <->
  exists entry, In entry feed_entries /\ published entry = Some d.
Proof.
  unfold published_dates. rewrite in_flat_map. split.
  - intros [entry [Hin Hd]]. exists entry. split; [exact Hin|].
    destruct (published entry) as [d'|]; simpl in Hd; [|contradiction].
    destruct Hd as [->|[]]. reflexivity.
  - intros [entry [Hin Hd]]. exists entry. split; [exact Hin|].
    rewrite Hd. left. reflexivity.
Qed.

(** The first element of a list sorted in descending order is its
    greatest, and sorting keeps the elements. *)
Lemma sort_head_greatest (dates : list datetime) (first : datetime) (rest : list datetime) :
  SortedReverse.sort dates = first :: rest ->
  In first dates /\ forall d, In d dates -> d <= first.
Proof.
  intros Hsort.
  pose proof (SortedReverse.Permuted_sort dates) as Hperm.
  pose proof (SortedReverse.StronglySorted_sort dates descending_transitive) as Hsorted.
  rewrite Hsort in Hperm, Hsorted. split.
  - apply (Permutation_in first (Permutation_sym Hperm)). left. reflexivity.
  - intros d Hd. apply (Permutation_in d Hperm) in Hd.
    destruct Hd as [->|Hd]; [lia|].
    apply StronglySorted_inv in Hsorted as [_ Hall].
    pose proof (proj1 (List.Forall_forall _ _) Hall d Hd) as Hle. clear Hall.
    rename Hle into Hall.
    unfold DescendingOrder.leb, is_true in Hall. apply Z.leb_le in Hall. exact Hall.
Qed.

Lemma sort_nil_inv (dates : list datetime) :
  SortedReverse.sort dates = [] -> dates = [].
Proof.
  intros Hsort. pose proof (SortedReverse.Permuted_sort dates) as Hperm.
  rewrite Hsort in Hperm. apply Permutation_sym, Permutation_nil in Hperm. exact Hperm.
Qed.

(** Without a published entry the extraction gives [None]. *)
Lemma _extract_last_timestamp_None (feed_entries : list FeedEntry) :
  (forall entry, In entry feed_entries -> published entry = None) ->
  _extract_last_timestamp feed_entries = None.
Proof.
  intros Hnone. unfold _extract_last_timestamp.
  destruct feed_entries as [|entry0 rest]; [reflexivity|].
  destruct (SortedReverse.sort (published_dates (entry0 :: rest))) as [|first tail] eqn:Hsort;
    [reflexivity|].
  apply sort_head_greatest in Hsort as [Hin _].
  apply published_dates_In in Hin as [entry [Hin Hd]].
  rewrite (Hnone entry Hin) in Hd. discriminate.
Qed.

Lemma _extract_last_timestamp_Some (feed_entries : list FeedEntry) (newest : datetime) :
  _extract_last_timestamp feed_entries = Some newest ->
  is_newest_published feed_entries newest.
Proof.
  unfold _extract_last_timestamp.
  destruct feed_entries as [|entry0 rest]; [discriminate|].
  destruct (SortedReverse.sort (published_dates (entry0 :: rest))) as [|first tail] eqn:Hsort;
    [discriminate|].
  intros [= ->]. apply sort_head_greatest in Hsort as [Hin Hmax]. split.
  - apply published_dates_In. exact Hin.
  - intros entry d Hentry Hd. apply Hmax, published_dates_In. eauto.
Qed.

(** The extraction gives [None] only when no entry is published. *)
Lemma _extract_last_timestamp_None_inv (feed_entries : list FeedEntry) :
  _extract_last_timestamp feed_entries = None ->
  forall entry, In entry feed_entries -> published entry = None.
Proof.
  unfold _extract_last_timestamp. intros Hextract entry Hin.
  destruct feed_entries as [|entry0 rest]; [destruct Hin|].
  destruct (SortedReverse.sort (published_dates (entry0 :: rest))) as [|first tail] eqn:Hsort;
    [|discriminate].
  apply sort_nil_inv in Hsort.
  destruct (published entry) as [d|] eqn:Hd; [|reflexivity].
  assert (Hdate : In d (published_dates (entry0 :: rest)))
    by (apply published_dates_In; eauto).
  rewrite Hsort in Hdate. destruct Hdate.
Qed.

(** The newest published timestamp is what the extraction gives. *)
Lemma newest_published_extracted (feed_entries : list FeedEntry) (newest : datetime) :
  is_newest_published feed_entries newest ->
  _extract_last_timestamp feed_entries = Some newest.
Proof.
  intros [[entry [Hin Hd]] Hmax].
  destruct (_extract_last_timestamp feed_entries) as [found|] eqn:Hextract.
  - apply _extract_last_timestamp_Some in Hextract as [[entry' [Hin' Hd']] Hmax'].
    specialize (Hmax entry' found Hin' Hd'). specialize (Hmax' entry newest Hin Hd).
    f_equal. lia.
  - rewrite (_extract_last_timestamp_None_inv _ Hextract entry Hin) in Hd. discriminate.
Qed.

End TimestampProperties.

(** C6: for every filtered entry list in which at least one entry has a
    published timestamp, [_extract_last_timestamp] returns the maximum of
    the published timestamps of the entries that have one: it is the
    timestamp of one of the entries, and no entry has a later one. *)
Theorem _extract_last_timestamp_maximum (feed_entries : list FeedEntry) :
  (exists entry, In entry feed_entries /\ published entry <> None) ->
  exists newest,
    _extract_last_timestamp feed_entries = Some newest /\
    is_newest_published feed_entries newest.
Proof.
  intros [entry [Hin Hpublished]].
  destruct (_extract_last_timestamp feed_entries) as [newest|] eqn:Hextract.
  - exists newest. split; [reflexivity|].
    apply _extract_last_timestamp_Some. exact Hextract.
  - exfalso. apply Hpublished.
    exact (_extract_last_timestamp_None_inv _ Hextract entry Hin).
Qed.

Lemma _extract_last_timestamp_maximum_witness :
  (exists entry, In entry [Examples.near_fire; Examples.undated; Examples.far_flood]
                 /\ published entry <> None) /\
  exists newest,
    _extract_last_timestamp [Examples.near_fire; Examples.undated; Examples.far_flood]
      = Some newest /\
    is_newest_published [Examples.near_fire; Examples.undated; Examples.far_flood] newest.
Proof.
  assert (H : exists entry,
             In entry [Examples.near_fire; Examples.undated; Examples.far_flood]
             /\ published entry <> None).
  { exists Examples.near_fire. split; [left; reflexivity|discriminate]. }
  split; [exact H|].
  exact (_extract_last_timestamp_maximum
           [Examples.near_fire; Examples.undated; Examples.far_flood] H).
Defined.

Example newest_of_three :
  _extract_last_timestamp [Examples.near_fire; Examples.undated; Examples.far_flood]
  = Some 2000.
Proof. vm_compute. reflexivity. Qed.

(** ** The filter: what it guarantees and what it skips *)

(** A distance equal to the radius meets the test of line 156. *)
Lemma eqb_leb (x y : float) :
  PrimFloat.eqb x y = true -> PrimFloat.leb x y = true.
Proof.
  rewrite FloatAxioms.eqb_spec, FloatAxioms.leb_spec.
  unfold SpecFloat.SFeqb, SpecFloat.SFleb.
  generalize (SpecFloat.SFcompare (FloatOps.Prim2SF x) (FloatOps.Prim2SF y)).
  intros [[]|]; intros H; try reflexivity; discriminate H.
Qed.

(** C4, amended: the entries [_filter_entries] returns are exactly the
    input entries that have a geometry, whose distance to home is at most
    the radius if the radius is configured and not zero, and whose
    category is a member of the category set if the set is configured and
    not empty; in particular an entry exactly at the radius passes the
    radius stage. *)
Theorem _filter_entries_invariant {RssEntry : Type} (self : GeoRssFeed RssEntry)
    (entries : list FeedEntry) (entry : FeedEntry) :
  (In entry (_filter_entries self entries) <->
   In entry entries /\
   geometry entry <> None /\
   (forall radius, _filter_radius self = Some radius ->
      PrimFloat.eqb radius 0%float = false ->
      PrimFloat.leb (distance_to_home entry) radius = true) /\
   (forall categories, _filter_categories self = Some categories ->
      categories <> ∅ ->
      category entry ∈ categories)) /\
  (forall radius, _filter_radius self = Some radius ->
     PrimFloat.eqb (distance_to_home entry) radius = true ->
     In entry entries ->
     geometry entry <> None ->
     (forall categories, _filter_categories self = Some categories ->
        categories <> ∅ ->
        category entry ∈ categories) ->
     In entry (_filter_entries self entries)).
Proof.
  assert (Hiff : In entry (_filter_entries self entries) <->
                 In entry entries /\
                 geometry entry <> None /\
                 (forall radius, _filter_radius self = Some radius ->
                    PrimFloat.eqb radius 0%float = false ->
                    PrimFloat.leb (distance_to_home entry) radius = true) /\
                 (forall categories, _filter_categories self = Some categories ->
                    categories <> ∅ ->
                    category entry ∈ categories)).
  { rewrite _filter_entries_In, has_geometry_true. split.
    - intros (Hin & Hgeo & Hradius & Hcat). split; [exact Hin|]. split; [exact Hgeo|]. split.
      + intros radius Hconf Hnz. unfold passes_radius in Hradius.
        rewrite Hconf in Hradius. unfold float_truthy in Hradius.
        rewrite Hnz in Hradius. exact Hradius.
      + intros categories Hconf Hne. unfold passes_categories in Hcat.
        rewrite Hconf in Hcat.
        rewrite (proj2 (set_truthy_non_empty categories) Hne) in Hcat.
        apply in_categories_elem_of. exact Hcat.
    - intros (Hin & Hgeo & Hradius & Hcat). split; [exact Hin|]. split; [exact Hgeo|]. split.
      + unfold passes_radius. destruct (_filter_radius self) as [radius|]; [|reflexivity].
        unfold float_truthy. destruct (PrimFloat.eqb radius 0) eqn:Hzero; [reflexivity|].
        apply (Hradius radius eq_refl Hzero).
      + unfold passes_categories.
        destruct (_filter_categories self) as [categories|]; [|reflexivity].
        destruct (set_truthy categories) eqn:Htruthy; [|reflexivity].
        apply in_categories_elem_of, (Hcat categories eq_refl).
        apply set_truthy_non_empty. exact Htruthy. }
  split; [exact Hiff|].
  intros radius Hconf Hequal Hin Hgeo Hcat. apply Hiff.
  split; [exact Hin|]. split; [exact Hgeo|]. split; [|exact Hcat].
  intros radius' Hconf' _. rewrite Hconf in Hconf'. injection Hconf' as <-.
  apply eqb_leb. exact Hequal.
Qed.

Lemma _filter_entries_invariant_witness :
  In Examples.on_boundary
     (_filter_entries (Examples.client (Some 50%float) (Some {[ Some "Fire"%string ]}) None)
        [Examples.placeless; Examples.on_boundary; Examples.far_flood]) /\
  ~ In Examples.far_flood
     (_filter_entries (Examples.client (Some 50%float) (Some {[ Some "Fire"%string ]}) None)
        [Examples.placeless; Examples.on_boundary; Examples.far_flood]).
Proof.
  split.
  - apply (proj2 (_filter_entries_invariant
                    (Examples.client (Some 50%float) (Some {[ Some "Fire"%string ]}) None)
                    [Examples.placeless; Examples.on_boundary; Examples.far_flood]
                    Examples.on_boundary) 50%float).
    + reflexivity.
    + reflexivity.
    + right. left. reflexivity.
    + discriminate.
    + intros categories [= <-] _. apply elem_of_singleton. reflexivity.
  - intros Hin.
    destruct (proj1 (proj1 (_filter_entries_invariant
                (Examples.client (Some 50%float) (Some {[ Some "Fire"%string ]}) None)
                [Examples.placeless; Examples.on_boundary; Examples.far_flood]
                Examples.far_flood)) Hin) as (_ & _ & Hradius & _).
    specialize (Hradius 50%float eq_refl eq_refl). vm_compute in Hradius. discriminate.
Defined.

(** C4 as worded fails: with a configured radius of zero an entry eighty
    away is returned, and with a configured empty category set an entry
    is returned whose category is in no set. *)
Lemma filter_invariant_fails_when_falsy :
  ~ filter_invariant (Examples.client (Some 0%float) None None)
      (_filter_entries (Examples.client (Some 0%float) None None) [Examples.far_flood]) /\
  ~ filter_invariant (Examples.client None (Some ∅) None)
      (_filter_entries (Examples.client None (Some ∅) None) [Examples.far_flood]).
Proof.
  split; intros Hinv.
  - destruct (Hinv Examples.far_flood) as (_ & Hradius & _).
    { vm_compute. left. reflexivity. }
    specialize (Hradius 0%float eq_refl). vm_compute in Hradius. discriminate.
  - destruct (Hinv Examples.far_flood) as (_ & _ & Hcat).
    { vm_compute. left. reflexivity. }
    specialize (Hcat ∅ eq_refl). apply not_elem_of_empty in Hcat. exact Hcat.
Qed.

(** Scenario A of the specification: three entries, one without
    geometry, radius 50, the others at distances 10 and 80. *)
Example scenario_A :
  _filter_entries (Examples.client (Some 50%float) None None)
    [Examples.placeless; Examples.near_fire; Examples.far_flood]
  = [Examples.near_fire].
Proof. vm_compute. reflexivity. Qed.

(** C9: a configured radius of zero, or a configured empty category set,
    skips its stage: the result is the one of the client without that
    filter, so an entry with a geometry passes whatever its distance
    (radius zero) or its category (empty set), provided it passes the
    other stage. *)
Theorem falsy_filter_skips_stage {RssEntry : Type} (self : GeoRssFeed RssEntry)
    (entries : list FeedEntry) :
  (forall radius, _filter_radius self = Some radius ->
     PrimFloat.eqb radius 0%float = true ->
     _filter_entries self entries = _filter_entries (without_radius self) entries /\
     forall entry, In entry entries -> geometry entry <> None ->
       passes_categories self entry = true ->
       In entry (_filter_entries self entries)) /\
  (_filter_categories self = Some ∅ ->
     _filter_entries self entries = _filter_entries (without_categories self) entries /\
     forall entry, In entry entries -> geometry entry <> None ->
       passes_radius self entry = true ->
       In entry (_filter_entries self entries)).
Proof.
  split.
  - intros radius Hconf Hzero. split.
    + unfold _filter_entries, float_truthy. simpl. rewrite Hconf, Hzero. reflexivity.
    + intros entry Hin Hgeo Hcat. apply _filter_entries_In.
      split; [exact Hin|]. split; [apply has_geometry_true; exact Hgeo|].
      split; [|exact Hcat].
      unfold passes_radius, float_truthy. rewrite Hconf, Hzero. reflexivity.
  - intros Hconf. split.
    + unfold _filter_entries. simpl. rewrite Hconf. reflexivity.
    + intros entry Hin Hgeo Hradius. apply _filter_entries_In.
      split; [exact Hin|]. split; [apply has_geometry_true; exact Hgeo|].
      split; [exact Hradius|].
      unfold passes_categories. rewrite Hconf. reflexivity.
Qed.

Lemma falsy_filter_skips_stage_witness :
  In Examples.far_flood
    (_filter_entries (Examples.client (Some 0%float) (Some ∅) None)
       [Examples.placeless; Examples.far_flood]) /\
  _filter_entries (Examples.client (Some 0%float) (Some ∅) None)
    [Examples.placeless; Examples.far_flood]
  = _filter_entries (without_categories (Examples.client (Some 0%float) (Some ∅) None))
      [Examples.placeless; Examples.far_flood].
Proof.
  pose proof (falsy_filter_skips_stage (Examples.client (Some 0%float) (Some ∅) None)
                [Examples.placeless; Examples.far_flood]) as [Hradius Hcat].
  split.
  - apply (proj2 (Hradius 0%float eq_refl eq_refl)).
    + right. left. reflexivity.
    + discriminate.
    + reflexivity.
  - apply (proj1 (Hcat eq_refl)).
Defined.

(** Negative zero is falsy as well, and a negative radius is not. *)
Example radius_negative_zero :
  _filter_entries (Examples.client (Some (-0)%float) None None) [Examples.far_flood]
  = [Examples.far_flood] /\
  _filter_entries (Examples.client (Some (-1)%float) None None) [Examples.far_flood]
  = [].
Proof. vm_compute. split; reflexivity. Qed.

(** ** The fetch *)

Section FetchProperties.

Context {RssEntry : Type}.

Local Abbreviation Feed := (Feed RssEntry).
Local Abbreviation GeoRssFeed := (GeoRssFeed RssEntry).
Local Abbreviation External := (External RssEntry).

(** A response object makes the pre-processing raise on line 137. *)
Lemma _pre_process_response_Some (response : ClientResponse) :
  _pre_process_response (Some response) = Raise (AttributeError "'ClientResponse' object has no attribute 'encoding'").
Proof. reflexivity. Qed.

(** [_fetch], step by step: the request, the status check, and line 89. *)
Lemma _fetch_steps (ext : External) (method : string)
    (headers params : option (list (string * string))) (self : GeoRssFeed) :
  _fetch ext method headers params self =
  match request ext (fetch_request method headers params self) with
  | Raise e => after_handlers e self
  | Ret response =>
      match raise_for_status ext response with
      | Raise e => after_handlers e self
      | Ret _ => (self, Raise (AttributeError "'ClientResponse' object has no attribute 'encoding'"))
      end
  end.
Proof.
  unfold _fetch, try_except, bind, lift, get_self, fetch_request, after_handlers,
    _client_session_timeout, response_clauses, request_clauses. simpl.
  destruct (request ext _) as [response|e]; [|destruct e; reflexivity].
  destruct (raise_for_status ext response) as [[]|e]; [|destruct e; reflexivity].
  reflexivity.
Qed.

(** [_fetch] yields [UPDATE_ERROR] or lets an exception through, and in
    either case the instance is as it was. *)
Lemma _fetch_results (ext : External) (method : string)
    (headers params : option (list (string * string))) (self : GeoRssFeed) :
  _fetch ext method headers params self = (self, Ret (UPDATE_ERROR, None)) \/
  (exists e, transport_exn e = false /\
             _fetch ext method headers params self = (self, Raise e)).
Proof.
  rewrite _fetch_steps. unfold after_handlers.
  destruct (request ext _) as [response|e].
  - destruct (raise_for_status ext response) as [[]|e].
    + right. eexists. split; [|reflexivity]. reflexivity.
    + destruct (transport_exn e) eqn:He; [left; reflexivity|right; eauto].
  - destruct (transport_exn e) eqn:He; [left; reflexivity|right; eauto].
Qed.

(** An exception of the body of the inner [try] that is neither a
    [ClientError] nor an [asyncio.TimeoutError] passes the clause of line
    96 and the clauses of lines 104 and 109. *)
Lemma clauses_pass (body : M RssEntry (Status * option Feed)) (self self' : GeoRssFeed)
    (e : exn) :
  body self = (self', Raise e) ->
  transport_exn e = false ->
  try_except (try_except body response_clauses) request_clauses self = (self', Raise e).
Proof.
  intros Hbody He. unfold try_except. rewrite Hbody.
  unfold transport_exn in He. apply orb_false_iff in He as [Hclient Htimeout].
  unfold response_clauses, request_clauses. simpl.
  rewrite Hclient. unfold raise. simpl. rewrite Hclient, Htimeout. reflexivity.
Qed.

End FetchProperties.

(** ** Response pre-processing *)

(** C7: [_pre_process_response] sets no encoding: on the response object
    it is given it raises [AttributeError] on line 137, whatever the
    payload and the declared charset, a payload with a byte-order mark
    included; only for a falsy response does it return, having done
    nothing.  In [_fetch] the exception passes every clause, so no text is
    decoded and the parser is not called. *)
Theorem _pre_process_response_AttributeError (response : ClientResponse) :
  _pre_process_response (Some response) = Raise (AttributeError "'ClientResponse' object has no attribute 'encoding'") /\
  _pre_process_response None = Ret None /\
  forall RssEntry (ext : External RssEntry) (self : GeoRssFeed RssEntry) method headers params,
    request ext (fetch_request method headers params self) = Ret response ->
    raise_for_status ext response = Ret tt ->
    _fetch ext method headers params self = (self, Raise (AttributeError "'ClientResponse' object has no attribute 'encoding'")).
Proof.
  split; [reflexivity|]. split; [reflexivity|].
  intros RssEntry ext self method headers params Hrequest Hstatus.
  rewrite _fetch_steps, Hrequest, Hstatus. reflexivity.
Qed.

Lemma _pre_process_response_AttributeError_witness :
  begins_with_bom Examples.bom_payload /\
  _fetch (Examples.mislabelled (Examples.feed_of [Examples.near_fire])) "GET" None None
    (Examples.client None None None)
  = (Examples.client None None None, Raise (AttributeError "'ClientResponse' object has no attribute 'encoding'")).
Proof.
  split; [exists Examples.plain_payload; reflexivity|].
  apply (proj2 (proj2 (_pre_process_response_AttributeError
                         {| status := 200; charset := Some "iso-8859-1"%string;
                            payload := Examples.bom_payload |})));
    reflexivity.
Defined.

(** ** The update *)

Section UpdateProperties.

Context {RssEntry : Type}.
Variable _new_entry : Coordinates -> RssEntry -> gmap string string -> FeedEntry.

Local Abbreviation Feed := (Feed RssEntry).
Local Abbreviation GeoRssFeed := (GeoRssFeed RssEntry).
Local Abbreviation External := (External RssEntry).

Lemma fold_left_append {A B} (f : A -> B) (l : list A) (acc : list B) :
  fold_left (fun entries x => entries ++ [f x]) l acc = acc ++ map f l.
Proof.
  revert acc. induction l as [|x l IH]; intros acc; simpl.
  - rewrite app_nil_r. reflexivity.
  - rewrite IH, <- app_assoc. reflexivity.
Qed.

(** The loop of lines 58-63 builds one entry per record, in feed order. *)
Lemma build_entries_map (self : GeoRssFeed) (feed : Feed) :
  build_entries _new_entry self feed
  = map (fun rss_entry =>
           _new_entry (_home_coordinates self) rss_entry (_extract_from_feed feed))
        (entries feed).
Proof. unfold build_entries. rewrite fold_left_append. reflexivity. Qed.

Lemma _filter_entries_configuration (self self' : GeoRssFeed) (es : list FeedEntry) :
  same_configuration self self' -> _filter_entries self' es = _filter_entries self es.
Proof.
  intros (_ & _ & Hradius & Hcat & _). unfold _filter_entries.
  rewrite Hradius, Hcat. reflexivity.
Qed.

Lemma build_entries_configuration (self self' : GeoRssFeed) (feed : Feed) :
  same_configuration self self' ->
  build_entries _new_entry self' feed = build_entries _new_entry self feed.
Proof.
  intros (_ & Hhome & _). unfold build_entries. rewrite Hhome. reflexivity.
Qed.

(** Lines 56-76 on each pair. *)
Lemma update_body_feed (feed : Feed) (self : GeoRssFeed) :
  update_body _new_entry UPDATE_OK (Some feed) self
  = (fst (set_last_timestamp
            (_extract_last_timestamp (filtered_entries_of _new_entry self feed)) self),
     Ret (UPDATE_OK, Some (filtered_entries_of _new_entry self feed))).
Proof. reflexivity. Qed.

Lemma update_body_no_feed (status : Status) (data : option Feed) (self : GeoRssFeed) :
  (status = UPDATE_OK -> data = None) ->
  update_body _new_entry status data self = (self, Ret (status, None)).
Proof.
  intros Hdata. destruct status; try reflexivity.
  rewrite (Hdata eq_refl). reflexivity.
Qed.

(** Line 55 as written: the coroutine object is not a pair. *)
Lemma update_TypeError (ext : External) (self : GeoRssFeed) :
  update _new_entry ext self
  = (self, Raise (TypeError "cannot unpack non-iterable coroutine object")).
Proof. reflexivity. Qed.

(** A sequence of calls leaves the instance as it was. *)
Lemma updates_self (exts : list External) (self : GeoRssFeed) :
  updates _new_entry exts self = self.
Proof.
  unfold updates. induction exts as [|ext exts IH]; [reflexivity|].
  cbn [fold_left]. rewrite update_TypeError. exact IH.
Qed.

(** Lines 56-76 write no attribute other than [_last_timestamp]. *)
Lemma update_body_frame (status_ : Status) (data : option Feed) (self : GeoRssFeed) :
  only_last_timestamp_differs self (fst (update_body _new_entry status_ data self)).
Proof.
  unfold only_last_timestamp_differs.
  destruct status_; [destruct data as [feed|]| |]; simpl; repeat split; reflexivity.
Qed.

Lemma filtered_entries_of_configuration (self self' : GeoRssFeed) (feed : Feed) :
  same_configuration self self' ->
  filtered_entries_of _new_entry self' feed = filtered_entries_of _new_entry self feed.
Proof.
  intros Hconf. unfold filtered_entries_of.
  rewrite (build_entries_configuration _ _ feed Hconf).
  apply _filter_entries_configuration. exact Hconf.
Qed.

End UpdateProperties.

(** [_fetch] never writes the instance. *)
Lemma _fetch_instance {RssEntry : Type} (ext : External RssEntry) (method : string)
    (headers params : option (list (string * string))) (self : GeoRssFeed RssEntry) :
  fst (_fetch ext method headers params self) = self.
Proof.
  destruct (_fetch_results ext method headers params self) as [Herr|[e [_ Hexn]]];
    [rewrite Herr|rewrite Hexn]; reflexivity.
Qed.

(** C10: [_filter_entries] returns a subsequence of its input: every
    returned entry is an input entry and the order is kept; the entries
    are built one per record in feed order, so the list [update] returns
    for a feed is a subsequence of the entries of the feed's records. *)
Theorem _filter_entries_subsequence {RssEntry : Type}
    (_new_entry : Coordinates -> RssEntry -> gmap string string -> FeedEntry)
    (self : GeoRssFeed RssEntry) (entries_in : list FeedEntry) :
  sublist (_filter_entries self entries_in) entries_in /\
  (forall entry, In entry (_filter_entries self entries_in) -> In entry entries_in) /\
  (forall feed : Feed RssEntry,
     exists returned,
       snd (update_body _new_entry UPDATE_OK (Some feed) self)
       = Ret (UPDATE_OK, Some returned) /\
       sublist returned
         (map (fun rss_entry =>
                 _new_entry (_home_coordinates self) rss_entry (_extract_from_feed feed))
              (entries feed))).
Proof.
  split; [|split].
  - rewrite _filter_entries_stages. apply filter_sublist.
  - intros entry Hin. apply _filter_entries_In in Hin. tauto.
  - intros feed. exists (filtered_entries_of _new_entry self feed).
    rewrite update_body_feed. split; [reflexivity|].
    unfold filtered_entries_of. rewrite _filter_entries_stages, build_entries_map.
    apply filter_sublist.
Qed.


(** C8: for every call of [update], no attribute of the instance other
    than [_last_timestamp] is changed: the call, and any sequence of
    calls, leaves the whole instance as it was; lines 56-76 write
    [_last_timestamp] alone; and [_fetch] does not reach the assignments
    of lines 93-94. *)
Theorem update_mutates_only_last_timestamp {RssEntry : Type}
    (_new_entry : Coordinates -> RssEntry -> gmap string string -> FeedEntry)
    (ext : External RssEntry) (self : GeoRssFeed RssEntry) :
  only_last_timestamp_differs self (fst (update _new_entry ext self)) /\
  (forall exts : list (External RssEntry),
     only_last_timestamp_differs self (updates _new_entry exts self)) /\
  (forall status_ data,
     only_last_timestamp_differs self (fst (update_body _new_entry status_ data self))) /\
  (forall method headers params,
     only_last_timestamp_differs self (fst (_fetch ext method headers params self))).
Proof.
  assert (Hsame : only_last_timestamp_differs self self).
  { unfold only_last_timestamp_differs. repeat split; reflexivity. }
  rewrite update_TypeError. split; [exact Hsame|]. split; [|split].
  - intros exts. rewrite updates_self. exact Hsame.
  - intros status_ data. apply update_body_frame.
  - intros method headers params. rewrite _fetch_instance. exact Hsame.
Qed.

(** C2: no call reports [UPDATE_OK_NO_DATA]. As written, [update] raises
    [TypeError] on line 55 and the instance is unchanged; [_fetch] has no
    path that gives the status, and lines 56-76 report it only when they
    are handed it, in which case lines 71-73 pass it on with no entries
    and leave the instance alone. *)
Theorem update_never_OK_NO_DATA {RssEntry : Type}
    (_new_entry : Coordinates -> RssEntry -> gmap string string -> FeedEntry)
    (ext : External RssEntry) (self : GeoRssFeed RssEntry) :
  update _new_entry ext self = (self, Raise (TypeError "cannot unpack non-iterable coroutine object")) /\
  (forall method headers params data,
     snd (_fetch ext method headers params self) <> Ret (UPDATE_OK_NO_DATA, data)) /\
  (forall status_ data returned,
     snd (update_body _new_entry status_ data self) = Ret (UPDATE_OK_NO_DATA, returned) ->
     status_ = UPDATE_OK_NO_DATA) /\
  (forall data,
     update_body _new_entry UPDATE_OK_NO_DATA data self
     = (self, Ret (UPDATE_OK_NO_DATA, None))).
Proof.
  split; [apply update_TypeError|]. split; [|split].
  - intros method headers params data.
    destruct (_fetch_results ext method headers params self) as [Herr|[e [_ Hexn]]];
      [rewrite Herr|rewrite Hexn]; discriminate.
  - intros status_ data returned.
    destruct status_; [destruct data as [feed|]| |]; simpl; try discriminate.
    reflexivity.
  - reflexivity.
Qed.

(** A server that answers 304 with an empty body. *)
Example update_on_not_modified :
  update Examples.entry_of_record Examples.not_modified
    (Examples.client None None (Some 5000))
  = (Examples.client None None (Some 5000), Raise (TypeError "cannot unpack non-iterable coroutine object")) /\
  _fetch Examples.not_modified "GET" None None (Examples.client None None (Some 5000))
  = (Examples.client None None (Some 5000), Raise (AttributeError "'ClientResponse' object has no attribute 'encoding'")).
Proof. split; reflexivity. Qed.

(** C3: a payload the XML parser rejects does not become
    [UPDATE_ERROR]: for every response that passes the status check,
    [_fetch] ends on line 89 in an [AttributeError] that no clause
    catches, before the parser is called; and an exception raised in the
    body of the inner [try], where the parser is called on line 92, that
    is neither a [ClientError] nor an [asyncio.TimeoutError] passes the
    clauses of lines 96, 104 and 109 and leaves [_fetch]. *)
Theorem _fetch_parser_exception_escapes {RssEntry : Type}
    (ext : External RssEntry) (self : GeoRssFeed RssEntry) (response : ClientResponse) :
  request ext (update_request self) = Ret response ->
  raise_for_status ext response = Ret tt ->
  _fetch ext "GET" None None self = (self, Raise (AttributeError "'ClientResponse' object has no attribute 'encoding'")) /\
  forall (body : M RssEntry (Status * option (Feed RssEntry)))
         (before after : GeoRssFeed RssEntry) (e : exn),
    body before = (after, Raise e) ->
    is_ClientError e = false ->
    is_TimeoutError e = false ->
    try_except (try_except body response_clauses) request_clauses before
    = (after, Raise e).
Proof.
  intros Hrequest Hstatus. split.
  - rewrite _fetch_steps. unfold update_request in Hrequest.
    rewrite Hrequest, Hstatus. reflexivity.
  - intros body before after e Hbody Hclient Htimeout.
    apply clauses_pass; [exact Hbody|].
    unfold transport_exn. rewrite Hclient, Htimeout. reflexivity.
Qed.

Lemma _fetch_parser_exception_escapes_witness :
  _fetch Examples.malformed "GET" None None (Examples.client None None (Some 5000))
  = (Examples.client None None (Some 5000), Raise (AttributeError "'ClientResponse' object has no attribute 'encoding'")) /\
  try_except
    (try_except
       (let* feed_data :=
          lift (parse Examples.malformed {| additional_namespaces := None |}
                  "<rss"%string) in
        ret (UPDATE_OK, feed_data))
       response_clauses)
    request_clauses (Examples.client None None (Some 5000))
  = (Examples.client None None (Some 5000), Raise (OtherError "ExpatError")).
Proof.
  destruct (_fetch_parser_exception_escapes Examples.malformed
              (Examples.client None None (Some 5000))
              (Examples.ok_response Examples.plain_payload) eq_refl eq_refl)
    as [Hfetch Hclauses].
  split; [exact Hfetch|].
  apply Hclauses; reflexivity.
Defined.

(** C5: on a transport-level failure or a timeout [_fetch] gives
    [UPDATE_ERROR] with no feed and leaves the instance unchanged, and
    lines 74-76 return [UPDATE_ERROR] with no entries for it; as written,
    [update] does not await the fetch and raises [TypeError] instead. *)
Theorem update_transport_failure {RssEntry : Type}
    (_new_entry : Coordinates -> RssEntry -> gmap string string -> FeedEntry)
    (ext : External RssEntry) (self : GeoRssFeed RssEntry) :
  transport_failure ext self ->
  _fetch ext "GET" None None self = (self, Ret (UPDATE_ERROR, None)) /\
  update_body _new_entry UPDATE_ERROR None self = (self, Ret (UPDATE_ERROR, None)) /\
  update _new_entry ext self = (self, Raise (TypeError "cannot unpack non-iterable coroutine object")).
Proof.
  intros Hfailure. split; [|split; [reflexivity|apply update_TypeError]].
  rewrite _fetch_steps. unfold transport_failure, update_request in Hfailure.
  unfold after_handlers.
  destruct Hfailure as [[e [Hrequest He]]|[response [e [Hrequest [Hstatus He]]]]].
  - rewrite Hrequest, He. reflexivity.
  - rewrite Hrequest, Hstatus, He. reflexivity.
Qed.

Lemma update_transport_failure_witness :
  transport_failure Examples.timing_out (Examples.client None None (Some 5000)) /\
  transport_failure Examples.failing (Examples.client None None (Some 5000)) /\
  update Examples.entry_of_record Examples.timing_out
    (Examples.client None None (Some 5000))
  = (Examples.client None None (Some 5000), Raise (TypeError "cannot unpack non-iterable coroutine object")).
Proof.
  assert (Hfailure : transport_failure Examples.timing_out
                       (Examples.client None None (Some 5000))).
  { left. exists TimeoutError. split; reflexivity. }
  split; [exact Hfailure|]. split.
  - right. eexists. eexists. split; [reflexivity|]. split; reflexivity.
  - apply (update_transport_failure Examples.entry_of_record Examples.timing_out
             (Examples.client None None (Some 5000)) Hfailure).
Defined.

(** Scenario D of the specification, on lines 56-76: two entries with
    timestamps 1000 < 2000 survive the filter. *)
Example scenario_D :
  _last_timestamp
    (fst (update_body Examples.entry_of_record UPDATE_OK
            (Some (Examples.feed_of [Examples.near_fire; Examples.far_flood]))
            (Examples.client None None None)))
  = Some 2000.
Proof. vm_compute. reflexivity. Qed.

(** Lines 65-66 assign what the extraction gives: handed a feed whose only
    entry is undated, lines 56-76 replace a timestamp of 5000 by [None]. *)
Example update_body_overwrites :
  _last_timestamp
    (fst (update_body Examples.entry_of_record UPDATE_OK
            (Some (Examples.feed_of [Examples.undated]))
            (Examples.client None None (Some 5000))))
  = None.
Proof. vm_compute. reflexivity. Qed.

(** * Further properties of the code *)

(** ** More on the filter *)

(** X1: the filter keeps every entry it has no reason to drop: an input
    entry with a geometry is returned when it is within the radius, should
    a non-zero radius be configured, and in the category set, should a
    non-empty one be configured. *)
Theorem _filter_entries_complete {RssEntry : Type} (self : GeoRssFeed RssEntry)
    (entries_in : list FeedEntry) (entry : FeedEntry) :
  In entry entries_in ->
  geometry entry <> None ->
  (forall radius, _filter_radius self = Some radius ->
     PrimFloat.eqb radius 0%float = false ->
     PrimFloat.leb (distance_to_home entry) radius = true) ->
  (forall categories, _filter_categories self = Some categories ->
     categories <> ∅ ->
     category entry ∈ categories) ->
  In entry (_filter_entries self entries_in).
Proof.
  intros Hin Hgeo Hradius Hcat. apply _filter_entries_In.
  split; [exact Hin|]. split; [apply has_geometry_true; exact Hgeo|]. split.
  - unfold passes_radius. destruct (_filter_radius self) as [radius|]; [|reflexivity].
    unfold float_truthy. destruct (PrimFloat.eqb radius 0) eqn:Hzero; [reflexivity|].
    apply (Hradius radius eq_refl Hzero).
  - unfold passes_categories.
    destruct (_filter_categories self) as [categories|]; [|reflexivity].
    destruct (set_truthy categories) eqn:Htruthy; [|reflexivity].
    apply in_categories_elem_of, (Hcat categories eq_refl).
    apply set_truthy_non_empty. exact Htruthy.
Qed.

Lemma _filter_entries_complete_witness :
  In Examples.near_fire
    (_filter_entries (Examples.client (Some 50%float) (Some {[ Some "Fire"%string ]}) None)
       [Examples.far_flood; Examples.near_fire]).
Proof.
  apply _filter_entries_complete.
  - right. left. reflexivity.
  - discriminate.
  - intros radius [= <-] _. reflexivity.
  - intros categories [= <-] _. apply elem_of_singleton. reflexivity.
Defined.

(** X2: filtering a filtered list changes nothing. *)
Theorem _filter_entries_idempotent {RssEntry : Type} (self : GeoRssFeed RssEntry)
    (entries_in : list FeedEntry) :
  _filter_entries self (_filter_entries self entries_in) = _filter_entries self entries_in.
Proof.
  rewrite !_filter_entries_stages, filter_twice. apply filter_ext.
  intros entry. destruct (has_geometry entry && passes_radius self entry
                          && passes_categories self entry); reflexivity.
Qed.

(** X3: entries are judged one by one: the filter of a concatenation is
    the concatenation of the filters, and nothing comes out of an empty
    list. *)
Theorem _filter_entries_app {RssEntry : Type} (self : GeoRssFeed RssEntry)
    (first second : list FeedEntry) :
  _filter_entries self (first ++ second)
  = _filter_entries self first ++ _filter_entries self second /\
  _filter_entries self [] = [].
Proof.
  rewrite !_filter_entries_stages. split; [apply List.filter_app|reflexivity].
Qed.

Lemma leb_nan_r (x : float) : PrimFloat.leb x nan = false.
Proof.
  rewrite FloatAxioms.leb_spec.
  change (FloatOps.Prim2SF nan) with SpecFloat.S754_nan.
  unfold SpecFloat.SFleb, SpecFloat.SFcompare.
  destruct (FloatOps.Prim2SF x) as [| | |[] ? ?]; reflexivity.
Qed.

Lemma leb_nan_l (x : float) : PrimFloat.leb nan x = false.
Proof.
  rewrite FloatAxioms.leb_spec.
  change (FloatOps.Prim2SF nan) with SpecFloat.S754_nan. reflexivity.
Qed.

(** X4: not-a-number never compares: with a radius of NaN the filter
    returns nothing, and an entry whose distance is NaN passes no radius
    that is not zero. *)
Theorem _filter_entries_nan {RssEntry : Type} (self : GeoRssFeed RssEntry)
    (entries_in : list FeedEntry) :
  (_filter_radius self = Some nan -> _filter_entries self entries_in = []) /\
  (forall radius entry,
     _filter_radius self = Some radius ->
     PrimFloat.eqb radius 0%float = false ->
     distance_to_home entry = nan ->
     ~ In entry (_filter_entries self entries_in)).
Proof.
  split.
  - intros Hnan. rewrite _filter_entries_stages.
    induction entries_in as [|entry rest IH]; [reflexivity|]. simpl.
    unfold passes_radius at 1. rewrite Hnan. simpl.
    unfold within_radius. rewrite leb_nan_r, andb_false_r. simpl. exact IH.
  - intros radius entry Hconf Hnz Hdist Hin.
    apply _filter_entries_In in Hin as (_ & _ & Hradius & _).
    unfold passes_radius, float_truthy, within_radius in Hradius.
    rewrite Hconf, Hnz, Hdist, leb_nan_l in Hradius. discriminate.
Qed.

Lemma _filter_entries_nan_witness :
  _filter_entries (Examples.client (Some nan) None None)
    [Examples.near_fire; Examples.far_flood] = [].
Proof.
  apply (proj1 (_filter_entries_nan (Examples.client (Some nan) None None)
                  [Examples.near_fire; Examples.far_flood])).
  reflexivity.
Defined.

(** ** More on the newest timestamp *)

Lemma _extract_last_timestamp_included (inner outer : list FeedEntry) (t : datetime) :
  (forall entry, In entry inner -> In entry outer) ->
  _extract_last_timestamp inner = Some t ->
  exists t', _extract_last_timestamp outer = Some t' /\ t <= t'.
Proof.
  intros Hincl Hinner.
  apply _extract_last_timestamp_Some in Hinner as [[entry [Hin Hd]] _].
  destruct (_extract_last_timestamp outer) as [t'|] eqn:Houter.
  - exists t'. split; [reflexivity|].
    apply _extract_last_timestamp_Some in Houter as [_ Hmax].
    apply (Hmax entry t (Hincl entry Hin) Hd).
  - rewrite (_extract_last_timestamp_None_inv _ Houter entry (Hincl entry Hin)) in Hd.
    discriminate.
Qed.

(** X5: the extraction gives [None] exactly when no entry of the list has
    a published timestamp; the empty list is such a list. *)
Theorem _extract_last_timestamp_None_iff (feed_entries : list FeedEntry) :
  _extract_last_timestamp feed_entries = None <->
  forall entry, In entry feed_entries -> published entry = None.
Proof.
  split.
  - apply _extract_last_timestamp_None_inv.
  - apply _extract_last_timestamp_None.
Qed.

(** X6: the extraction depends on which entries the list holds, not on
    their order nor on repetitions. *)
Theorem _extract_last_timestamp_same_entries (first second : list FeedEntry) :
  (forall entry, In entry first <-> In entry second) ->
  _extract_last_timestamp first = _extract_last_timestamp second.
Proof.
  intros Hsame.
  destruct (_extract_last_timestamp first) as [t|] eqn:Hfirst.
  - symmetry. apply newest_published_extracted.
    apply _extract_last_timestamp_Some in Hfirst as [[entry [Hin Hd]] Hmax]. split.
    + exists entry. split; [apply Hsame; exact Hin|exact Hd].
    + intros entry' d Hin' Hd'. apply (Hmax entry' d); [apply Hsame; exact Hin'|exact Hd'].
  - symmetry. apply _extract_last_timestamp_None. intros entry Hin.
    apply (_extract_last_timestamp_None_inv _ Hfirst). apply Hsame. exact Hin.
Qed.

Lemma _extract_last_timestamp_same_entries_witness :
  _extract_last_timestamp [Examples.near_fire; Examples.far_flood]
  = _extract_last_timestamp [Examples.far_flood; Examples.near_fire; Examples.far_flood].
Proof.
  apply _extract_last_timestamp_same_entries. intros entry. simpl. tauto.
Defined.

(** X7: the newest timestamp of a concatenation is the later of the
    newest timestamps of its parts. *)
Theorem _extract_last_timestamp_app (first second : list FeedEntry) :
  _extract_last_timestamp (first ++ second)
  = newer_of (_extract_last_timestamp first) (_extract_last_timestamp second).
Proof.
  destruct (_extract_last_timestamp first) as [x|] eqn:Hfirst;
    destruct (_extract_last_timestamp second) as [y|] eqn:Hsecond; simpl.
  - apply _extract_last_timestamp_Some in Hfirst as [[e1 [Hin1 Hd1]] Hmax1].
    apply _extract_last_timestamp_Some in Hsecond as [[e2 [Hin2 Hd2]] Hmax2].
    apply newest_published_extracted. split.
    + destruct (Z.max_spec x y) as [[_ ->]|[_ ->]].
      * exists e2. split; [apply in_or_app; right; exact Hin2|exact Hd2].
      * exists e1. split; [apply in_or_app; left; exact Hin1|exact Hd1].
    + intros entry d Hin Hd. apply in_app_or in Hin as [Hin|Hin].
      * specialize (Hmax1 entry d Hin Hd). lia.
      * specialize (Hmax2 entry d Hin Hd). lia.
  - apply _extract_last_timestamp_Some in Hfirst as [[e1 [Hin1 Hd1]] Hmax1].
    apply newest_published_extracted. split.
    + exists e1. split; [apply in_or_app; left; exact Hin1|exact Hd1].
    + intros entry d Hin Hd. apply in_app_or in Hin as [Hin|Hin].
      * apply (Hmax1 entry d Hin Hd).
      * rewrite (_extract_last_timestamp_None_inv _ Hsecond entry Hin) in Hd. discriminate.
  - apply _extract_last_timestamp_Some in Hsecond as [[e2 [Hin2 Hd2]] Hmax2].
    apply newest_published_extracted. split.
    + exists e2. split; [apply in_or_app; right; exact Hin2|exact Hd2].
    + intros entry d Hin Hd. apply in_app_or in Hin as [Hin|Hin].
      * rewrite (_extract_last_timestamp_None_inv _ Hfirst entry Hin) in Hd. discriminate.
      * apply (Hmax2 entry d Hin Hd).
  - apply _extract_last_timestamp_None. intros entry Hin.
    apply in_app_or in Hin as [Hin|Hin].
    + apply (_extract_last_timestamp_None_inv _ Hfirst entry Hin).
    + apply (_extract_last_timestamp_None_inv _ Hsecond entry Hin).
Qed.

(** X8: the newest timestamp of the filtered entries is never later than
    the newest timestamp of all the entries: dropping entries can only
    make it older or remove it. *)
Theorem _extract_last_timestamp_filtered {RssEntry : Type} (self : GeoRssFeed RssEntry)
    (entries_in : list FeedEntry) (t : datetime) :
  _extract_last_timestamp (_filter_entries self entries_in) = Some t ->
  exists t', _extract_last_timestamp entries_in = Some t' /\ t <= t'.
Proof.
  apply _extract_last_timestamp_included.
  intros entry Hin. apply _filter_entries_In in Hin. tauto.
Qed.

Lemma _extract_last_timestamp_filtered_witness :
  exists t', _extract_last_timestamp [Examples.near_fire; Examples.far_flood] = Some t'
             /\ 1000 <= t'.
Proof.
  apply (_extract_last_timestamp_filtered (Examples.client (Some 50%float) None None)
           [Examples.near_fire; Examples.far_flood] 1000).
  vm_compute. reflexivity.
Defined.

(** ** More on the metadata and the entries built *)

(** X11: the feed-level metadata holds at most the attribution: the
    author under the key [ATTR_ATTRIBUTION] when the feed has a non-empty
    author, and nothing at all when the author is missing or empty. *)
Theorem _extract_from_feed_lookup {RssEntry : Type} (feed : Feed RssEntry) :
  (forall a, author feed = Some a -> a <> ""%string ->
     _extract_from_feed feed !! ATTR_ATTRIBUTION = Some a /\
     forall key, key <> ATTR_ATTRIBUTION -> _extract_from_feed feed !! key = None) /\
  (author feed = None \/ author feed = Some ""%string ->
     _extract_from_feed feed = ∅).
Proof.
  unfold _extract_from_feed. split.
  - intros a Hauthor Hne. rewrite Hauthor.
    rewrite bool_decide_eq_false_2 by exact Hne. split.
    + apply lookup_insert_eq.
    + intros key Hkey. rewrite lookup_insert_ne by congruence. apply lookup_empty.
  - intros [Hnone|Hempty]; [rewrite Hnone|rewrite Hempty]; reflexivity.
Qed.

Lemma _extract_from_feed_lookup_witness :
  _extract_from_feed (Examples.feed_of []) !! ATTR_ATTRIBUTION
  = Some "Rural Fire Service"%string.
Proof.
  apply (proj1 (_extract_from_feed_lookup (Examples.feed_of []))
           "Rural Fire Service"%string eq_refl).
  discriminate.
Defined.

(** X12: the loop of [update] builds exactly one entry per record of the
    feed, in feed order: the entry at a position is the factory applied to
    the client's home coordinates, the record at that position and the
    metadata of the feed. *)
Theorem build_entries_lookup {RssEntry : Type}
    (_new_entry : Coordinates -> RssEntry -> gmap string string -> FeedEntry)
    (self : GeoRssFeed RssEntry) (feed : Feed RssEntry) :
  length (build_entries _new_entry self feed) = length (entries feed) /\
  forall i : nat,
    build_entries _new_entry self feed !! i
    = (fun rss_entry =>
         _new_entry (_home_coordinates self) rss_entry (_extract_from_feed feed))
      <$> (entries feed !! i).
Proof.
  rewrite build_entries_map. split.
  - apply length_map.
  - intros i. apply list_lookup_fmap.
Qed.

(** ** More on the fetch *)

(** X13: no [ClientError] and no [asyncio.TimeoutError] leaves [_fetch],
    at whichever step it is raised; when another exception does leave it,
    the instance is as it was before the call. *)
Theorem _fetch_escaping_exception {RssEntry : Type} (ext : External RssEntry)
    (method : string) (headers params : option (list (string * string)))
    (self : GeoRssFeed RssEntry) (e : exn) :
  snd (_fetch ext method headers params self) = Raise e ->
  is_ClientError e = false /\ is_TimeoutError e = false /\
  fst (_fetch ext method headers params self) = self.
Proof.
  destruct (_fetch_results ext method headers params self) as [Herr|[e' [He' Hexn]]].
  - rewrite Herr. discriminate.
  - rewrite Hexn. simpl. intros [= <-].
    unfold transport_exn in He'. apply orb_false_iff in He' as [Hclient Htimeout].
    repeat split; assumption.
Qed.

Lemma _fetch_escaping_exception_witness :
  is_ClientError (AttributeError "'ClientResponse' object has no attribute 'encoding'") = false /\
  is_TimeoutError (AttributeError "'ClientResponse' object has no attribute 'encoding'") = false /\
  fst (_fetch Examples.malformed "GET" None None (Examples.client None None None))
  = Examples.client None None None.
Proof.
  apply (_fetch_escaping_exception Examples.malformed "GET" None None
           (Examples.client None None None) (AttributeError "'ClientResponse' object has no attribute 'encoding'")).
  reflexivity.
Defined.

(** X14: whenever [_fetch] returns, it returns [UPDATE_ERROR] with no
    data and the instance is as it was: it never returns [UPDATE_OK] and
    never stores [parser] or [feed_data], because a response that passes
    the status check ends in the exception of line 89. *)
Theorem _fetch_returns_only_ERROR {RssEntry : Type} (ext : External RssEntry)
    (method : string) (headers params : option (list (string * string)))
    (self : GeoRssFeed RssEntry) (status_ : Status) (data : option (Feed RssEntry)) :
  snd (_fetch ext method headers params self) = Ret (status_, data) ->
  status_ = UPDATE_ERROR /\ data = None /\
  fst (_fetch ext method headers params self) = self /\
  exists e, transport_exn e = true /\
    (request ext (fetch_request method headers params self) = Raise e \/
     exists response,
       request ext (fetch_request method headers params self) = Ret response /\
       raise_for_status ext response = Raise e).
Proof.
  rewrite _fetch_steps. unfold after_handlers.
  destruct (request ext _) as [response|e] eqn:Hrequest.
  - destruct (raise_for_status ext response) as [[]|e] eqn:Hstatus; [discriminate|].
    destruct (transport_exn e) eqn:He; [|discriminate].
    simpl. intros [= <- <-]. repeat split. exists e. split; [exact He|].
    right. exists response. split; [reflexivity|exact Hstatus].
  - destruct (transport_exn e) eqn:He; [|discriminate].
    simpl. intros [= <- <-]. repeat split. exists e. split; [exact He|].
    left. reflexivity.
Qed.

Lemma _fetch_returns_only_ERROR_witness :
  UPDATE_ERROR = UPDATE_ERROR /\ (None : option (Feed FeedEntry)) = None /\
  fst (_fetch Examples.failing "GET" None None (Examples.client None None None))
  = Examples.client None None None /\
  exists e, transport_exn e = true /\
    (request Examples.failing
       (fetch_request "GET" None None (Examples.client None None None)) = Raise e \/
     exists response,
       request Examples.failing
         (fetch_request "GET" None None (Examples.client None None None)) = Ret response /\
       raise_for_status Examples.failing response = Raise e).
Proof.
  apply (_fetch_returns_only_ERROR Examples.failing "GET" None None
           (Examples.client None None None) UPDATE_ERROR None).
  reflexivity.
Defined.

(** X15: the filters, the home coordinates and what earlier calls left on
    the instance have no part in the fetch: two clients with the same
    session and URL get the same status and data. *)
Theorem _fetch_depends_on_session_and_url {RssEntry : Type} (ext : External RssEntry)
    (method : string) (headers params : option (list (string * string)))
    (self self' : GeoRssFeed RssEntry) :
  _websession self' = _websession self ->
  _url self' = _url self ->
  snd (_fetch ext method headers params self')
  = snd (_fetch ext method headers params self).
Proof.
  intros Hsession Hurl. rewrite !_fetch_steps. unfold fetch_request, after_handlers.
  rewrite Hsession, Hurl.
  destruct (request ext _) as [response|e].
  - destruct (raise_for_status ext response) as [[]|e]; [reflexivity|].
    destruct (transport_exn e); reflexivity.
  - destruct (transport_exn e); reflexivity.
Qed.

Lemma _fetch_depends_on_session_and_url_witness :
  snd (_fetch Examples.failing "GET" None None
         (Examples.client (Some 50%float) (Some ∅) (Some 5000)))
  = snd (_fetch Examples.failing "GET" None None (Examples.client None None None)).
Proof.
  apply _fetch_depends_on_session_and_url; reflexivity.
Defined.



(** ** More on lines 56-76 of [update] *)

(** X17: when lines 56-76 return a list of entries, the status handed in
    and the status returned are [UPDATE_OK], a feed was handed in, and
    [_last_timestamp] afterwards is the extraction over that very list. *)
Theorem update_body_last_timestamp_of_returned {RssEntry : Type}
    (_new_entry : Coordinates -> RssEntry -> gmap string string -> FeedEntry)
    (status_in : Status) (data : option (Feed RssEntry)) (self : GeoRssFeed RssEntry)
    (status_out : Status) (returned : list FeedEntry) :
  snd (update_body _new_entry status_in data self) = Ret (status_out, Some returned) ->
  status_in = UPDATE_OK /\ status_out = UPDATE_OK /\
  (exists feed, data = Some feed) /\
  _last_timestamp (fst (update_body _new_entry status_in data self))
  = _extract_last_timestamp returned.
Proof.
  destruct status_in; [destruct data as [feed|]| |]; simpl; try discriminate.
  intros [= <- <-]. repeat split. exists feed. reflexivity.
Qed.

Lemma update_body_last_timestamp_of_returned_witness :
  UPDATE_OK = UPDATE_OK /\ UPDATE_OK = UPDATE_OK /\
  (exists feed, Some (Examples.feed_of [Examples.near_fire; Examples.placeless]) = Some feed) /\
  _last_timestamp
    (fst (update_body Examples.entry_of_record UPDATE_OK
            (Some (Examples.feed_of [Examples.near_fire; Examples.placeless]))
            (Examples.client None None (Some 5000))))
  = _extract_last_timestamp [Examples.near_fire].
Proof.
  apply (update_body_last_timestamp_of_returned Examples.entry_of_record UPDATE_OK
           (Some (Examples.feed_of [Examples.near_fire; Examples.placeless]))
           (Examples.client None None (Some 5000)) UPDATE_OK [Examples.near_fire]).
  vm_compute. reflexivity.
Defined.

(** X18: lines 56-76 change [_last_timestamp] only when they are handed
    [UPDATE_OK] together with a feed. *)
Theorem update_body_last_timestamp_changes {RssEntry : Type}
    (_new_entry : Coordinates -> RssEntry -> gmap string string -> FeedEntry)
    (status_in : Status) (data : option (Feed RssEntry)) (self : GeoRssFeed RssEntry) :
  _last_timestamp (fst (update_body _new_entry status_in data self))
  <> _last_timestamp self ->
  status_in = UPDATE_OK /\ exists feed, data = Some feed.
Proof.
  destruct status_in; [destruct data as [feed|]| |]; simpl; intros Hchanged;
    try (destruct Hchanged; reflexivity).
  split; [reflexivity|]. exists feed. reflexivity.
Qed.

Lemma update_body_last_timestamp_changes_witness :
  UPDATE_OK = UPDATE_OK /\
  exists feed, Some (Examples.feed_of [Examples.placeless]) = Some feed.
Proof.
  apply (update_body_last_timestamp_changes Examples.entry_of_record UPDATE_OK
           (Some (Examples.feed_of [Examples.placeless]))
           (Examples.client None None (Some 5000))).
  vm_compute. discriminate.
Defined.

(** X19: running lines 56-76 again on the same status and data returns
    the same result and leaves the instance as the first run left it. *)
Theorem update_body_idempotent {RssEntry : Type}
    (_new_entry : Coordinates -> RssEntry -> gmap string string -> FeedEntry)
    (status_in : Status) (data : option (Feed RssEntry)) (self : GeoRssFeed RssEntry) :
  update_body _new_entry status_in data
    (fst (update_body _new_entry status_in data self))
  = update_body _new_entry status_in data self.
Proof.
  destruct status_in; [destruct data as [feed|]| |]; reflexivity.
Qed.

(** X20: what lines 56-76 return does not depend on what earlier calls
    left on the instance: two clients with the same configuration get the
    same result, whatever their [_last_timestamp], so entries older than
    the last timestamp are returned again; and when a list of entries is
    returned, both end with the same [_last_timestamp]. *)
Theorem update_body_ignores_history {RssEntry : Type}
    (_new_entry : Coordinates -> RssEntry -> gmap string string -> FeedEntry)
    (status_in : Status) (data : option (Feed RssEntry))
    (self self' : GeoRssFeed RssEntry) :
  same_configuration self self' ->
  snd (update_body _new_entry status_in data self')
  = snd (update_body _new_entry status_in data self) /\
  forall status_out returned,
    snd (update_body _new_entry status_in data self) = Ret (status_out, Some returned) ->
    _last_timestamp (fst (update_body _new_entry status_in data self'))
    = _last_timestamp (fst (update_body _new_entry status_in data self)).
Proof.
  intros Hconf.
  destruct status_in; [destruct data as [feed|]| |];
    try (split; [reflexivity|]; simpl; discriminate).
  rewrite !update_body_feed.
  rewrite (filtered_entries_of_configuration _new_entry _ _ feed Hconf).
  split; [reflexivity|]. intros _ _ _. reflexivity.
Qed.

Lemma update_body_ignores_history_witness :
  snd (update_body Examples.entry_of_record UPDATE_OK
         (Some (Examples.feed_of [Examples.near_fire]))
         (Examples.client None None (Some 5000)))
  = snd (update_body Examples.entry_of_record UPDATE_OK
           (Some (Examples.feed_of [Examples.near_fire]))
           (Examples.client None None None)).
Proof.
  apply (update_body_ignores_history Examples.entry_of_record UPDATE_OK
           (Some (Examples.feed_of [Examples.near_fire]))
           (Examples.client None None None) (Examples.client None None (Some 5000))).
  unfold same_configuration. simpl. repeat split; reflexivity.
Defined.

(** X23: the entries lines 56-76 return are exactly the entries the
    factory builds from the records of the feed handed in that have a
    geometry and pass the radius and category stages the configuration
    makes active. *)
Theorem update_body_returned_entries {RssEntry : Type}
    (_new_entry : Coordinates -> RssEntry -> gmap string string -> FeedEntry)
    (status_in : Status) (data : option (Feed RssEntry)) (self : GeoRssFeed RssEntry)
    (status_out : Status) (returned : list FeedEntry) :
  snd (update_body _new_entry status_in data self) = Ret (status_out, Some returned) ->
  exists feed,
    data = Some feed /\
    forall entry,
      In entry returned <->
      (exists rss_entry,
         In rss_entry (entries feed) /\
         entry = _new_entry (_home_coordinates self) rss_entry (_extract_from_feed feed)) /\
      geometry entry <> None /\
      passes_radius self entry = true /\
      passes_categories self entry = true.
Proof.
  destruct status_in; [destruct data as [feed|]| |]; try (simpl; discriminate).
  rewrite update_body_feed. simpl. intros [= _ <-]. exists feed.
  split; [reflexivity|].
  intros entry. unfold filtered_entries_of.
  rewrite _filter_entries_In, build_entries_map, in_map_iff, has_geometry_true.
  split.
  - intros [[rss_entry [Hentry Hin]] Hrest]. split; [|exact Hrest].
    exists rss_entry. split; [exact Hin|symmetry; exact Hentry].
  - intros [[rss_entry [Hin Hentry]] Hrest]. split; [|exact Hrest].
    exists rss_entry. split; [symmetry; exact Hentry|exact Hin].
Qed.

Lemma update_body_returned_entries_witness :
  exists feed,
    Some (Examples.feed_of [Examples.near_fire; Examples.placeless]) = Some feed /\
    forall entry,
      In entry [Examples.near_fire] <->
      (exists rss_entry,
         In rss_entry (entries feed) /\
         entry = Examples.entry_of_record
                   (_home_coordinates (Examples.client None None None)) rss_entry
                   (_extract_from_feed feed)) /\
      geometry entry <> None /\
      passes_radius (Examples.client None None None) entry = true /\
      passes_categories (Examples.client None None None) entry = true.
Proof.
  apply (update_body_returned_entries Examples.entry_of_record UPDATE_OK
           (Some (Examples.feed_of [Examples.near_fire; Examples.placeless]))
           (Examples.client None None None) UPDATE_OK [Examples.near_fire]).
  vm_compute. reflexivity.
Defined.
